(** * dbacker: table-level backup and retention, embedded from [main.go]

    The development follows the program text of [performBackup],
    [deleteOldBackups], [getTablesToBackup] and [createBackupTable].

    - Go strings are byte strings: [string] with one [ascii] per byte;
      [len], slicing and [<] are the byte-wise operations.
    - Go's [int] is a 64-bit integer held in [Z], negation wraps.
    - The collaborators the program calls (the wall clock, the SQL
      server behind [*sql.DB], the logger) are an explicit world that is
      threaded through every call. *)

From Stdlib Require Import ZArith List Bool Ascii String Lia.
Import ListNotations.

Local Open Scope string_scope.
Local Open Scope Z_scope.

(** ** Go [int] *)

Module GoInt.

Definition min_int : Z := - 2 ^ 63.

Definition wrap (z : Z) : Z := (z + 2 ^ 63) mod 2 ^ 64 - 2 ^ 63.

(** Unary minus on [int]: [-x]. *)
Definition neg (x : Z) : Z := wrap (- x).

End GoInt.

(** ** The part of package [time] the program uses

    [time.Now()] is read from the world (see [time_Now] below); here are
    the calendar date of an instant, [AddDate] and
    [Format("20060102")]. *)

Module Time.

Record date := mkDate { year : Z; month : Z; day : Z }.

Definition isLeap (y : Z) : bool :=
  (y mod 4 =? 0) && (negb (y mod 100 =? 0) || (y mod 400 =? 0)).

Definition daysIn (y m : Z) : Z :=
  if m =? 2 then (if isLeap y then 29 else 28)
  else if (m =? 4) || (m =? 6) || (m =? 9) || (m =? 11) then 30
  else 31.

Definition valid (d : date) : Prop :=
  1 <= month d <= 12 /\ 1 <= day d <= daysIn (year d) (month d).

(** The day after and the day before a calendar date. *)
Definition next_day (d : date) : date :=
  if day d <? daysIn (year d) (month d) then mkDate (year d) (month d) (day d + 1)
  else if month d <? 12 then mkDate (year d) (month d + 1) 1
  else mkDate (year d + 1) 1 1.

Definition prev_day (d : date) : date :=
  if 1 <? day d then mkDate (year d) (month d) (day d - 1)
  else if 1 <? month d then mkDate (year d) (month d - 1) (daysIn (year d) (month d - 1))
  else mkDate (year d - 1) 12 31.

(** [n] days after ([n >= 0]) or before ([n < 0]) a date. *)
Definition shift_days (d : date) (n : Z) : date :=
  if 0 <=? n then Nat.iter (Z.to_nat n) next_day d
  else Nat.iter (Z.to_nat (- n)) prev_day d.

(** [t.AddDate(years, months, days)]: the date
    [Date(year+years, month+months, day+days)], normalised: the month
    overflows into the year, then the day overflows into the month. *)
Definition AddDate (t : date) (years months days : Z) : date :=
  let m0 := month t - 1 + months in
  let y := year t + years + m0 / 12 in
  let m := m0 mod 12 + 1 in
  shift_days (mkDate y m 1) (day t - 1 + days).

(** Decimal digits. *)
Definition digit (n : Z) : ascii := ascii_of_nat (48 + Z.to_nat n).

Fixpoint digits (fuel : nat) (u : Z) : string :=
  match fuel with
  | O => EmptyString
  | S f => if u <? 10 then String (digit u) EmptyString
           else (digits f (u / 10) ++ String (digit (u mod 10)) EmptyString)%string
  end.

Fixpoint zeros (n : nat) : string :=
  match n with O => EmptyString | S k => String "0" (zeros k) end.

(** [appendInt(b, x, width)]: the decimal form of [x], zero-padded to
    [width] digits, with a leading minus sign when negative.  Two- and
    four-digit fields have their own fast path. *)
Definition appendInt (x : Z) (width : nat) : string :=
  let u := Z.abs x in
  let sign := if x <? 0 then "-" else "" in
  let body :=
    if (Nat.eqb width 2) && (u <? 100) then
      String (digit (u / 10)) (String (digit (u mod 10)) EmptyString)
    else if (Nat.eqb width 4) && (u <? 10000) then
      String (digit (u / 1000)) (String (digit (u / 100 mod 10))
        (String (digit (u / 10 mod 10)) (String (digit (u mod 10)) EmptyString)))
    else
      let ds := digits (S (Z.to_nat (Z.log2 u))) u in
      (zeros (width - String.length ds) ++ ds)%string in
  (sign ++ body)%string.

(** [t.Format("20060102")]: four-digit year, two-digit month, two-digit
    day. *)
Definition Format20060102 (t : date) : string :=
  (appendInt (year t) 4 ++ appendInt (month t) 2 ++ appendInt (day t) 2)%string.

End Time.

(** ** The SQL server, as far as the program talks to it

    The catalog is the content of [information_schema.tables]: one row
    per table, with its schema and its name.  Identifiers are taken
    verbatim (one byte per character, no case folding, no quoting), and
    a table is its name: the rows it holds play no part in what the
    program decides. *)

Module Sql.

Definition dberr := string.

Record table := mkTable { table_schema : string; table_name : string }.

Definition catalog := list table.

Definition public (name : string) : table := mkTable "public" name.

(** [s LIKE pat]: [%] stands for any sequence of characters, [_] for
    any single character, a backslash makes the character after it
    literal, every other character stands for itself.  A pattern that
    ends in a lone backslash matches nothing here; the program's
    patterns all end in [%]. *)
Fixpoint like (pat : string) : string -> bool :=
  match pat with
  | EmptyString => fun s => match s with EmptyString => true | _ => false end
  | String c pat' =>
      if Ascii.eqb c "%" then
        fix star (s : string) : bool :=
          like pat' s || match s with EmptyString => false | String _ s' => star s' end
      else if Ascii.eqb c "_" then
        fun s => match s with EmptyString => false | String _ s' => like pat' s' end
      else if Ascii.eqb c "\" then
        match pat' with
        | EmptyString => fun _ => false
        | String e pat'' =>
            fun s => match s with
                     | EmptyString => false
                     | String x s' => Ascii.eqb x e && like pat'' s'
                     end
        end
      else
        fun s => match s with
                 | EmptyString => false
                 | String x s' => Ascii.eqb x c && like pat' s'
                 end
  end.

(** The two catalog queries of the program, with [$1 = prefix]:
    [SELECT table_name FROM information_schema.tables
     WHERE table_schema = 'public' AND table_name [NOT] LIKE $1 || '%'] *)
Inductive query :=
| TablesLike (prefix : string)
| TablesNotLike (prefix : string).

Definition where_clause (q : query) (t : table) : bool :=
  match q with
  | TablesLike prefix =>
      String.eqb (table_schema t) "public" && like (prefix ++ "%") (table_name t)
  | TablesNotLike prefix =>
      String.eqb (table_schema t) "public" && negb (like (prefix ++ "%") (table_name t))
  end.

Definition select (q : query) (c : catalog) : list string :=
  map table_name (filter (where_clause q) c).

(** The two statements the program sends with [db.Exec]. *)
Inductive stmt :=
| DropTableIfExists (name : string)
| CreateTableAs (backup source : string).

(** The statement text built by [fmt.Sprintf]. *)
Definition render (s : stmt) : string :=
  match s with
  | DropTableIfExists name => "DROP TABLE IF EXISTS " ++ name
  | CreateTableAs backup source =>
      "CREATE TABLE " ++ backup ++ " AS SELECT * FROM " ++ source
  end.

Definition is_public_named (name : string) (t : table) : bool :=
  String.eqb (table_schema t) "public" && String.eqb (table_name t) name.

Definition has_table (c : catalog) (name : string) : bool :=
  existsb (is_public_named name) c.

(** What a statement does to the catalog when the server accepts it.
    [DROP TABLE IF EXISTS] takes the table away and is content when it
    is not there; [CREATE TABLE .. AS SELECT * FROM ..] needs the source
    and refuses a name that is taken. *)
Definition apply (s : stmt) (c : catalog) : dberr + catalog :=
  match s with
  | DropTableIfExists name =>
      inr (filter (fun t => negb (is_public_named name t)) c)
  | CreateTableAs backup source =>
      if has_table c backup then inl ("relation already exists: " ++ backup)
      else if has_table c source then inr (c ++ [public backup])%list
      else inl ("relation does not exist: " ++ source)
  end.

End Sql.

Import Sql.

(** ** The world around one run *)

(** What the log receives; one constructor per [log.Printf] of the two
    loops. *)
Inductive log_entry :=
| LogDropFailed (table : string) (err : dberr)      (* line 168 *)
| LogDropped (table : string)                       (* line 172 *)
| LogCreateFailed (table : string) (err : dberr)    (* line 121 *)
| LogCreated (table backupTableName : string).      (* line 125 *)

(** What can be observed of a run, in the order it happens. *)
Inductive event :=
| EvQuery (q : query)
| EvExec (s : stmt)
| EvLog (l : log_entry).

(** What the program cannot control: the reading of the clock at each
    call of [time.Now()], and which requests the server refuses (lost
    connection, permissions, locks, a row that does not scan). *)
Record Env := mkEnv {
  clock : nat -> Time.date;
  query_fault : query -> option dberr;
  scan_fault : string -> option dberr;
  exec_fault : stmt -> option dberr
}.

Record World := mkWorld {
  tables : catalog;
  nowCalls : nat;
  trace : list event
}.

Definition emit (ev : event) (w : World) : World :=
  mkWorld (tables w) (nowCalls w) (trace w ++ [ev])%list.

(** ** A state monad over the world *)

Definition M (A : Type) : Type := World -> A * World.

Definition ret {A} (a : A) : M A := fun w => (a, w).

Definition bind {A B} (m : M A) (k : A -> M B) : M B :=
  fun w => let (a, w') := m w in k a w'.

Notation "x <- m ;; k" := (bind m (fun x => k))
  (at level 61, m at next level, right associativity).
Notation "m ;;; k" := (bind m (fun _ => k))
  (at level 61, right associativity).

(** The rows of a result set as the loop [for rows.Next() { rows.Scan }]
    meets them: each is a scanned name or the error of [Scan]. *)
Definition rows := list (dberr + string).

Section Program.

Variable E : Env.

Definition time_Now : M Time.date :=
  fun w => (clock E (nowCalls w), mkWorld (tables w) (S (nowCalls w)) (trace w)).

Definition scan (name : string) : dberr + string :=
  match scan_fault E name with
  | Some err => inl err
  | None => inr name
  end.

Definition db_Query (q : query) : M (dberr + rows) :=
  fun w =>
    match query_fault E q with
    | Some err => (inl err, emit (EvQuery q) w)
    | None => (inr (map scan (select q (tables w))), emit (EvQuery q) w)
    end.

Definition db_Exec (s : stmt) : M (option dberr) :=
  fun w =>
    match exec_fault E s with
    | Some err => (Some err, emit (EvExec s) w)
    | None =>
        match apply s (tables w) with
        | inl err => (Some err, emit (EvExec s) w)
        | inr c => (None, mkWorld c (nowCalls w) (trace w ++ [EvExec s])%list)
        end
    end.

Definition log_Printf (l : log_entry) : M unit :=
  fun w => (tt, emit (EvLog l) w).

(** [tableName[len(tableName)-8:]] *)
Definition datePart (tableName : string) : string :=
  substring (String.length tableName - 8) 8 tableName.

(** Lines 147-161: the first loop of [deleteOldBackups]. *)
Fixpoint markRows (threshold : string) (rs : rows) (tablesToDelete : list string)
  : dberr + list string :=
  match rs with
  | [] => inr tablesToDelete
  | inl err :: _ => inl err
  | inr tableName :: rest =>
      if (8 <=? String.length tableName)%nat then
        if (datePart tableName <? threshold)%string then
          markRows threshold rest (tablesToDelete ++ [tableName])%list
        else markRows threshold rest tablesToDelete
      else markRows threshold rest tablesToDelete
  end.

(** Lines 164-173: the second loop of [deleteOldBackups]. *)
Fixpoint dropTables (realRun : bool) (tablesToDelete : list string) : M unit :=
  match tablesToDelete with
  | [] => ret tt
  | table :: rest =>
      (if realRun then
         r <- db_Exec (DropTableIfExists table) ;;
         match r with
         | Some err => log_Printf (LogDropFailed table err)
         | None => log_Printf (LogDropped table)
         end
       else log_Printf (LogDropped table)) ;;;
      dropTables realRun rest
  end.

(** Lines 133-161 of [deleteOldBackups]: the threshold, the catalog
    query and the first loop; the value is [tablesToDelete], or the
    error the function returns at line 143 or 151. *)
Definition markExpired (prefix : string) (retentionDays : Z) : M (dberr + list string) :=
  now <- time_Now ;;
  let thresholdDate := Time.AddDate now 0 0 (GoInt.neg retentionDays) in
  let threshold := Time.Format20060102 thresholdDate in
  r <- db_Query (TablesLike prefix) ;;
  match r with
  | inl err => ret (inl err)
  | inr rs => ret (markRows threshold rs [])
  end.

Definition deleteOldBackups (prefix : string) (retentionDays : Z) (realRun : bool)
  : M (option dberr) :=
  m <- markExpired prefix retentionDays ;;
  match m with
  | inl err => ret (Some err)
  | inr tablesToDelete => dropTables realRun tablesToDelete ;;; ret None
  end.

(** Lines 190-197: the loop of [getTablesToBackup]. *)
Fixpoint scanRows (rs : rows) (tbls : list string) : dberr + list string :=
  match rs with
  | [] => inr tbls
  | inl err :: _ => inl err
  | inr tableName :: rest => scanRows rest (tbls ++ [tableName])%list
  end.

Definition getTablesToBackup (prefix : string) : M (dberr + list string) :=
  r <- db_Query (TablesNotLike prefix) ;;
  match r with
  | inl err => ret (inl err)
  | inr rs => ret (scanRows rs [])
  end.

Definition createBackupTable (originalTable backupTable : string) : M (option dberr) :=
  db_Exec (CreateTableAs backupTable originalTable).

(** [fmt.Sprintf("%s_%s_%s", prefix, table, currentDate)] *)
Definition backupName (prefix table currentDate : string) : string :=
  prefix ++ "_" ++ table ++ "_" ++ currentDate.

(** Lines 116-126: the loop of [performBackup]. *)
Fixpoint createBackups (prefix currentDate : string) (realRun : bool)
  (tbls : list string) : M unit :=
  match tbls with
  | [] => ret tt
  | table :: rest =>
      let backupTableName := backupName prefix table currentDate in
      (if realRun then
         r <- createBackupTable table backupTableName ;;
         match r with
         | Some err => log_Printf (LogCreateFailed table err)
         | None => log_Printf (LogCreated table backupTableName)
         end
       else log_Printf (LogCreated table backupTableName)) ;;;
      createBackups prefix currentDate realRun rest
  end.

(** The error [performBackup] returns: the enumeration error of one of
    the two stages, wrapped by [fmt.Errorf] with the stage's message. *)
Inductive run_error :=
| DeleteOldBackupsError (err : dberr)     (* line 105 *)
| GetTablesError (err : dberr).           (* line 111 *)

(** Lines 108-128 of [performBackup]: what follows a sweep that
    returned no error. *)
Definition snapshotPass (prefix : string) (realRun : bool) : M (option run_error) :=
  r <- getTablesToBackup prefix ;;
  match r with
  | inl e => ret (Some (GetTablesError e))
  | inr tbls =>
      now <- time_Now ;;
      let currentDate := Time.Format20060102 now in
      createBackups prefix currentDate realRun tbls ;;;
      ret None
  end.

Definition performBackup (prefix : string) (retentionDays : Z) (realRun : bool)
  : M (option run_error) :=
  err <- deleteOldBackups prefix retentionDays realRun ;;
  match err with
  | Some e => ret (Some (DeleteOldBackupsError e))
  | None => snapshotPass prefix realRun
  end.

End Program.

(** ** Reading a run *)

(** The world [main] hands to [performBackup]: a catalog, a clock that
    has not been read, nothing observed yet. *)
Definition initial (c : catalog) : World := mkWorld c 0 [].

(** The threshold string of the sweep that starts in [w]. *)
Definition thresholdOf (E : Env) (retentionDays : Z) (w : World) : string :=
  Time.Format20060102 (Time.AddDate (clock E (nowCalls w)) 0 0 (GoInt.neg retentionDays)).

(** The statements sent to the server, in order. *)
Fixpoint executed (tr : list event) : list stmt :=
  match tr with
  | [] => []
  | EvExec s :: rest => s :: executed rest
  | _ :: rest => executed rest
  end.

(** The log, in order. *)
Fixpoint logged (tr : list event) : list log_entry :=
  match tr with
  | [] => []
  | EvLog l :: rest => l :: logged rest
  | _ :: rest => logged rest
  end.

(** The catalog queries, in order. *)
Fixpoint queried (tr : list event) : list query :=
  match tr with
  | [] => []
  | EvQuery q :: rest => q :: queried rest
  | _ :: rest => queried rest
  end.



(** The outcome of a catalog enumeration on a catalog: the error of
    [db.Query] or of the first failing [rows.Scan], else every name. *)
Definition enumeration (E : Env) (q : query) (c : catalog) : dberr + list string :=
  match query_fault E q with
  | Some err => inl err
  | None => scanRows (map (scan E) (select q c)) []
  end.


Definition is_snapshot_event (ev : event) : bool :=
  match ev with
  | EvQuery (TablesNotLike _) => true
  | EvExec (CreateTableAs _ _) => true
  | EvLog (LogCreateFailed _ _) | EvLog (LogCreated _ _) => true
  | _ => false
  end.

(** The test of the first loop on one scanned name. *)
Definition expired (threshold tableName : string) : bool :=
  (8 <=? String.length tableName)%nat && (datePart tableName <? threshold)%string.

(** Two environments that differ at most in which statements fail. *)
Definition same_but_exec (E E' : Env) : Prop :=
  (forall n, clock E n = clock E' n) /\
  (forall q, query_fault E q = query_fault E' q) /\
  (forall t, scan_fault E t = scan_fault E' t).


(** The number a date spells in [YYYYMMDD]. *)
Definition dateKey (d : Time.date) : Z :=
  Time.year d * 10000 + Time.month d * 100 + Time.day d.

(** What the second loop of the sweep does for one marked table in a
    real run: [DROP TABLE IF EXISTS] is not refused by the catalog, so
    its outcome is the environment's. *)
Definition dropEvents (E : Env) (table : string) : list event :=
  [EvExec (DropTableIfExists table);
   EvLog (match exec_fault E (DropTableIfExists table) with
          | Some err => LogDropFailed table err
          | None => LogDropped table
          end)].

(** The log line of the snapshot loop for one table is one of two. *)
Definition create_logged (prefix currentDate table : string) (l : log_entry) : Prop :=
  l = LogCreated table (backupName prefix table currentDate) \/
  exists err, l = LogCreateFailed table err.

(** The events of a sweep whose first loop ended with [m]. *)
Definition sweepTrace (E : Env) (prefix : string) (realRun : bool)
  (m : dberr + list string) : list event :=
  EvQuery (TablesLike prefix) ::
  match m with
  | inl _ => []
  | inr tablesToDelete =>
      if realRun then flat_map (dropEvents E) tablesToDelete
      else map (fun t => EvLog (LogDropped t)) tablesToDelete
  end.

(** A string of decimal digits and the number it spells. *)
Fixpoint digitString (ds : list Z) : string :=
  match ds with
  | [] => EmptyString
  | a :: rest => String (Time.digit a) (digitString rest)
  end.

Fixpoint digitValue (ds : list Z) : Z :=
  match ds with
  | [] => 0
  | a :: rest => a * 10 ^ Z.of_nat (List.length rest) + digitValue rest
  end.

Definition is_digit (a : Z) : Prop := 0 <= a <= 9.

(** The eight digits of a date. *)
Definition dateDigits (d : Time.date) : list Z :=
  [Time.year d / 1000; Time.year d / 100 mod 10; Time.year d / 10 mod 10;
   Time.year d mod 10;
   Time.month d / 10; Time.month d mod 10;
   Time.day d / 10; Time.day d mod 10].

(** An environment in which nothing fails and the clock stands on one
    day. *)
Definition quiet (today : Time.date) : Env :=
  mkEnv (fun _ => today) (fun _ => None) (fun _ => None) (fun _ => None).



(** An environment in which the server refuses to drop the table
    [locked] and to snapshot the table [denied], and the clock stands on
    one day. *)
Definition refusing (today : Time.date) (locked denied : string) : Env :=
  mkEnv (fun _ => today) (fun _ => None) (fun _ => None)
    (fun s =>
       match s with
       | DropTableIfExists name =>
           if String.eqb name locked then Some "lock not available" else None
       | CreateTableAs _ source =>
           if String.eqb source denied then Some "permission denied" else None
       end).

(** An environment in which one catalog query fails. *)
Definition unreachable (today : Time.date) (sweepFails : bool) : Env :=
  mkEnv (fun _ => today)
    (fun q =>
       match q with
       | TablesLike _ => if sweepFails then Some "connection reset" else None
       | TablesNotLike _ => if sweepFails then None else Some "connection reset"
       end)
    (fun _ => None) (fun _ => None).

(** ** Configuration, connection and [main] *)

Record PostgresConfig := mkPostgresConfig {
  Host : string;
  Port : Z;
  User : string;
  Password : string;
  DBName : string
}.

Record BackupConfig := mkBackupConfig {
  Prefix : string;
  Retention : Z
}.

Record Config := mkConfig {
  Postgres : PostgresConfig;
  Backup : BackupConfig
}.

(** What the process finds around it: its command line, the file
    system, the JSON decoder (its value is the zero [Config] filled with
    what the document holds), and the outcome of opening and of pinging
    a connection described by a connection string. *)
Record System := mkSystem {
  os_Args : list string;
  ioutil_ReadFile : string -> dberr + string;
  json_Unmarshal : string -> dberr + Config;
  sql_Open : string -> option dberr;
  db_Ping : string -> option dberr
}.

(** The two errors of [loadConfig], each wrapped by [fmt.Errorf]. *)
Inductive config_error :=
| ReadConfigError (err : dberr)      (* line 63 *)
| ParseConfigError (err : dberr).    (* line 69 *)

Definition loadConfig (sys : System) (filename : string) : config_error + Config :=
  match ioutil_ReadFile sys filename with
  | inl err => inl (ReadConfigError err)
  | inr file =>
      match json_Unmarshal sys file with
      | inl err => inl (ParseConfigError err)
      | inr config =>
          let config :=
            if String.eqb (Prefix (Backup config)) ""
            then mkConfig (Postgres config)
                   (mkBackupConfig "autobackup" (Retention (Backup config)))
            else config in
          let config :=
            if Retention (Backup config) =? 0
            then mkConfig (Postgres config)
                   (mkBackupConfig (Prefix (Backup config)) 14)
            else config in
          inr config
      end
  end.

(** [%d] of an [int]. *)
Definition fmt_d (x : Z) : string :=
  let sign := if x <? 0 then "-" else "" in
  (sign ++ Time.digits (S (Z.to_nat (Z.log2 (Z.abs x)))) (Z.abs x))%string.

(** The connection string of [connectToPostgres], line 84. *)
Definition connStr (cfg : PostgresConfig) : string :=
  ("host=" ++ Host cfg ++ " port=" ++ fmt_d (Port cfg) ++ " user=" ++ User cfg ++
   " password=" ++ Password cfg ++ " dbname=" ++ DBName cfg ++ " sslmode=disable")%string.

(** [connectToPostgres]: the handle is known by the string it was
    opened with. *)
Definition connectToPostgres (sys : System) (cfg : PostgresConfig) : dberr + string :=
  match sql_Open sys (connStr cfg) with
  | Some err => inl err
  | None =>
      match db_Ping sys (connStr cfg) with
      | Some err => inl err
      | None => inr (connStr cfg)
      end
  end.

(** Package [flag], as far as [main] uses it: the set of defined bool
    flags with the value each one's variable holds.  [flag.Bool]
    defines a flag and returns the address of its variable, which holds
    the default; only [flag.Parse] stores what the command line says. *)
Definition FlagSet := list (string * bool).

Definition flag_Bool (name : string) (value : bool) (fs : FlagSet) : string * FlagSet :=
  (name, (name, value) :: fs).

(** [*p] for the address [p] of a flag's variable. *)
Definition flag_deref (fs : FlagSet) (p : string) : bool :=
  match find (fun nv => String.eqb (fst nv) p) fs with
  | Some nv => snd nv
  | None => false
  end.

(** How [main] ends: one of its three [log.Fatalf] (exit status 1), or
    the line "backup done" and a normal return. *)
Inductive exit :=
| FatalConfig (err : config_error)     (* line 40 *)
| FatalConnect (err : dberr)           (* line 46 *)
| FatalBackup (err : run_error)        (* line 53 *)
| BackupDone.                          (* line 56 *)

(** [main], on the server the connection reaches.  The command line
    [os_Args] is never parsed. *)
Definition main (sys : System) (E : Env) (w : World) : exit * World :=
  let (run, flags) := flag_Bool "run" false [] in
  match loadConfig sys "config.ini" with
  | inl err => (FatalConfig err, w)
  | inr config =>
      match connectToPostgres sys (Postgres config) with
      | inl err => (FatalConnect err, w)
      | inr db =>
          let (err, w') :=
            performBackup E (Prefix (Backup config)) (Retention (Backup config))
              (flag_deref flags run) w in
          match err with
          | Some e => (FatalBackup e, w')
          | None => (BackupDone, w')
          end
      end
  end.

(** ** More ways to read a run *)

Definition max_int : Z := 2 ^ 63 - 1.





(** A prefix made of characters that stand for themselves in a [LIKE]
    pattern. *)
Fixpoint plain (s : string) : bool :=
  match s with
  | EmptyString => true
  | String c s' =>
      negb (Ascii.eqb c "%") && negb (Ascii.eqb c "_") && negb (Ascii.eqb c "\")
      && plain s'
  end.


(** A system whose [config.ini] decodes to a connection section and
    nothing else, started with [-run] on its command line. *)
Definition sample_system : System :=
  mkSystem ["dbacker"; "-run"]
    (fun name => if String.eqb name "config.ini" then inr "{...}"
                 else inl "no such file or directory")
    (fun _ => inr (mkConfig (mkPostgresConfig "localhost" 5432 "wer" "password" "dbname")
                     (mkBackupConfig "" 0)))
    (fun _ => None) (fun _ => None).

(** * Properties *)

(** ** The model at work *)

Example format_20230515 :
  Time.Format20060102 (Time.mkDate 2023 5 15) = "20230515".
Proof. reflexivity. Qed.

Example format_wide_year :
  Time.Format20060102 (Time.mkDate 10000 1 1) = "100000101".
Proof. reflexivity. Qed.

Example addDate_minus_14 :
  Time.AddDate (Time.mkDate 2023 5 15) 0 0 (GoInt.neg 14) = Time.mkDate 2023 5 1.
Proof. vm_compute. reflexivity. Qed.

Example addDate_normalises :
  Time.AddDate (Time.mkDate 2024 2 28) 0 0 2 = Time.mkDate 2024 3 1 /\
  Time.AddDate (Time.mkDate 2023 1 1) 0 0 (-1) = Time.mkDate 2022 12 31 /\
  Time.AddDate (Time.mkDate 2023 10 31) 0 1 0 = Time.mkDate 2023 12 1.
Proof. vm_compute. repeat split. Qed.

Example neg_wraps : GoInt.neg GoInt.min_int = GoInt.min_int.
Proof. reflexivity. Qed.

Example like_wildcards :
  like "auto_backup%" "autoXbackup_t_20200101" = true /\
  like "a%b%" "a__b_20200101" = true /\
  like "bk\%" "bk\_20200101" = false /\
  like "bk\%" "bk%" = true /\
  like "autobackup%" "users" = false.
Proof. repeat split. Qed.

Example render_statements :
  render (DropTableIfExists "autobackup_users_20230101") =
    "DROP TABLE IF EXISTS autobackup_users_20230101" /\
  render (CreateTableAs "autobackup_users_20230501" "users") =
    "CREATE TABLE autobackup_users_20230501 AS SELECT * FROM users".
Proof. split; reflexivity. Qed.

Example datePart_short : datePart "abc" = "abc" /\ datePart "x_20230101" = "20230101".
Proof. split; reflexivity. Qed.

(** The end-to-end scenario: [users], [orders] and a backup of 40
    days ago, prefix [autobackup], retention 14, on 2023-05-01. *)
Example scenario_real_run :
  performBackup (quiet (Time.mkDate 2023 5 1)) "autobackup" 14 true
    (initial [public "users"; public "orders"; public "autobackup_users_20230101"]) =
  (None,
   mkWorld
     [public "users"; public "orders";
      public "autobackup_users_20230501"; public "autobackup_orders_20230501"]
     2
     [EvQuery (TablesLike "autobackup");
      EvExec (DropTableIfExists "autobackup_users_20230101");
      EvLog (LogDropped "autobackup_users_20230101");
      EvQuery (TablesNotLike "autobackup");
      EvExec (CreateTableAs "autobackup_users_20230501" "users");
      EvLog (LogCreated "users" "autobackup_users_20230501");
      EvExec (CreateTableAs "autobackup_orders_20230501" "orders");
      EvLog (LogCreated "orders" "autobackup_orders_20230501")]).
Proof. vm_compute. reflexivity. Qed.

Example scenario_dry_run :
  performBackup (quiet (Time.mkDate 2023 5 1)) "autobackup" 14 false
    (initial [public "users"; public "orders"; public "autobackup_users_20230101"]) =
  (None,
   mkWorld
     [public "users"; public "orders"; public "autobackup_users_20230101"]
     2
     [EvQuery (TablesLike "autobackup");
      EvLog (LogDropped "autobackup_users_20230101");
      EvQuery (TablesNotLike "autobackup");
      EvLog (LogCreated "users" "autobackup_users_20230501");
      EvLog (LogCreated "orders" "autobackup_orders_20230501")]).
Proof. vm_compute. reflexivity. Qed.

(** A second real run on the same day: each CREATE is refused because
    the backup exists, the refusals are logged, the run succeeds. *)
Example scenario_same_day_rerun :
  let c := [public "users"; public "autobackup_users_20230501"] in
  let run := performBackup (quiet (Time.mkDate 2023 5 1)) "autobackup" 14 true (initial c) in
  fst run = None /\
  tables (snd run) = c /\
  logged (trace (snd run)) =
    [LogCreateFailed "users" "relation already exists: autobackup_users_20230501"].
Proof. vm_compute. repeat split. Qed.

Example scenario_sweep_unreachable :
  performBackup (unreachable (Time.mkDate 2023 5 1) true) "autobackup" 14 true
    (initial [public "users"; public "autobackup_users_20230101"]) =
  (Some (DeleteOldBackupsError "connection reset"),
   mkWorld [public "users"; public "autobackup_users_20230101"] 1
     [EvQuery (TablesLike "autobackup")]).
Proof. vm_compute. reflexivity. Qed.

Example scenario_snapshot_unreachable :
  performBackup (unreachable (Time.mkDate 2023 5 1) false) "autobackup" 14 true
    (initial [public "users"; public "autobackup_users_20230101"]) =
  (Some (GetTablesError "connection reset"),
   mkWorld [public "users"] 1
     [EvQuery (TablesLike "autobackup");
      EvExec (DropTableIfExists "autobackup_users_20230101");
      EvLog (LogDropped "autobackup_users_20230101");
      EvQuery (TablesNotLike "autobackup")]).
Proof. vm_compute. reflexivity. Qed.

Example connStr_sample :
  connStr (mkPostgresConfig "localhost" 5432 "wer" "password" "dbname") =
  "host=localhost port=5432 user=wer password=password dbname=dbname sslmode=disable".
Proof. reflexivity. Qed.

Example fmt_d_values : fmt_d 0 = "0" /\ fmt_d (-17) = "-17" /\ fmt_d 65535 = "65535".
Proof. repeat split. Qed.

Example loadConfig_sample :
  loadConfig sample_system "config.ini" =
  inr (mkConfig (mkPostgresConfig "localhost" 5432 "wer" "password" "dbname")
         (mkBackupConfig "autobackup" 14)) /\
  loadConfig sample_system "other.ini" = inl (ReadConfigError "no such file or directory").
Proof. split; reflexivity. Qed.

(** [main] started with [-run]: the expired backup is still there. *)
Example main_with_run_flag :
  main sample_system (quiet (Time.mkDate 2023 5 1))
    (initial [public "users"; public "autobackup_users_20230101"]) =
  (BackupDone,
   mkWorld [public "users"; public "autobackup_users_20230101"] 2
     [EvQuery (TablesLike "autobackup");
      EvLog (LogDropped "autobackup_users_20230101");
      EvQuery (TablesNotLike "autobackup");
      EvLog (LogCreated "users" "autobackup_users_20230501")]).
Proof. vm_compute. reflexivity. Qed.

(** ** The row loops *)

Section Rows.

Variable E : Env.

Lemma scanRows_acc (rs : rows) (acc : list string) :
  scanRows rs acc =
  match scanRows rs [] with
  | inl err => inl err
  | inr l => inr (acc ++ l)%list
  end.
Proof.
  revert acc. induction rs as [|[err|name] rest IH]; intros acc; simpl.
  - now rewrite app_nil_r.
  - reflexivity.
  - rewrite (IH (acc ++ [name])%list), (IH [name]).
    destruct (scanRows rest []); [reflexivity|].
    now rewrite <- app_assoc.
Qed.

Lemma markRows_acc (th : string) (rs : rows) (acc : list string) :
  markRows th rs acc =
  match markRows th rs [] with
  | inl err => inl err
  | inr l => inr (acc ++ l)%list
  end.
Proof.
  revert acc. induction rs as [|[err|name] rest IH]; intros acc; cbn [markRows app].
  - now rewrite app_nil_r.
  - reflexivity.
  - destruct (8 <=? String.length name)%nat; [|apply IH].
    destruct (datePart name <? th)%string; [|apply IH].
    rewrite (IH (acc ++ [name])%list), (IH [name]).
    destruct (markRows th rest []); [reflexivity|].
    now rewrite <- app_assoc.
Qed.

(** The first loop marks, of the names it scans, those that pass
    [expired]; it fails exactly when scanning fails. *)
Lemma markRows_scanRows (th : string) (rs : rows) :
  markRows th rs [] =
  match scanRows rs [] with
  | inl err => inl err
  | inr names => inr (filter (expired th) names)
  end.
Proof.
  induction rs as [|[err|name] rest IH]; cbn [markRows scanRows app]; try reflexivity.
  rewrite (scanRows_acc rest [name]), (markRows_acc th rest [name]), IH.
  destruct (scanRows rest []) as [err|names]; cbn [filter app].
  - now destruct (8 <=? String.length name)%nat, (datePart name <? th)%string.
  - replace (expired th name)
      with ((8 <=? String.length name)%nat && (datePart name <? th)%string)
      by reflexivity.
    now destruct (8 <=? String.length name)%nat, (datePart name <? th)%string.
Qed.

(** A scan that succeeds on every row yields every name, in order. *)
Lemma scanRows_scan (names l : list string) :
  scanRows (map (scan E) names) [] = inr l -> l = names.
Proof.
  revert l. induction names as [|n rest IH]; intros l; simpl.
  - now intros [= <-].
  - unfold scan at 1. destruct (scan_fault E n); [discriminate|].
    rewrite scanRows_acc. destruct (scanRows (map (scan E) rest) []) eqn:Hr; [discriminate|].
    intros [= <-]. simpl. f_equal. now apply IH.
Qed.

Lemma enumeration_names (q : query) (c : catalog) (l : list string) :
  enumeration E q c = inr l -> l = select q c.
Proof.
  unfold enumeration. destruct (query_fault E q); [discriminate|].
  apply scanRows_scan.
Qed.

End Rows.

(** ** The two loops that write *)

Section Loops.

Variable E : Env.

Lemma executed_app (a b : list event) : executed (a ++ b) = (executed a ++ executed b)%list.
Proof. induction a as [|[q|s|l] a IH]; simpl; congruence. Qed.

Lemma logged_app (a b : list event) : logged (a ++ b) = (logged a ++ logged b)%list.
Proof. induction a as [|[q|s|l] a IH]; simpl; congruence. Qed.


Lemma dropTables_dry (l : list string) (w : World) :
  dropTables E false l w =
  (tt, mkWorld (tables w) (nowCalls w)
         (trace w ++ map (fun t => EvLog (LogDropped t)) l)).
Proof.
  revert w. induction l as [|t l IH]; intros w.
  - simpl. unfold ret. rewrite app_nil_r. now destruct w.
  - cbn [dropTables]. unfold bind, log_Printf. rewrite IH. simpl.
    now rewrite <- app_assoc.
Qed.

Lemma dropTables_real (l : list string) (w : World) :
  exists c,
    dropTables E true l w =
    (tt, mkWorld c (nowCalls w) (trace w ++ flat_map (dropEvents E) l)) /\
    forall prefix,
      Forall (fun t => like (prefix ++ "%") t = true) l ->
      select (TablesNotLike prefix) c = select (TablesNotLike prefix) (tables w).
Proof.
  revert w. induction l as [|t l IH]; intros w.
  - exists (tables w). split; [|reflexivity].
    simpl. unfold ret. rewrite app_nil_r. now destruct w.
  - cbn [dropTables flat_map]. unfold bind at 1 2. unfold db_Exec, dropEvents.
    destruct (exec_fault E (DropTableIfExists t)) as [err|] eqn:Hf.
    + unfold log_Printf, emit. cbn [tables nowCalls trace].
      destruct (IH (mkWorld (tables w) (nowCalls w)
                     ((trace w ++ [EvExec (DropTableIfExists t)]) ++
                      [EvLog (LogDropFailed t err)]))) as (c & Hrun & Hsel).
      exists c. split.
      * rewrite Hrun. cbn [tables nowCalls trace]. f_equal. f_equal.
        rewrite <- !app_assoc. reflexivity.
      * intros prefix Hall. inversion Hall; subst. now apply Hsel.
    + cbn [apply]. unfold log_Printf, emit. cbn [tables nowCalls trace].
      set (c1 := filter (fun t0 => negb (is_public_named t t0)) (tables w)).
      destruct (IH (mkWorld c1 (nowCalls w)
                     ((trace w ++ [EvExec (DropTableIfExists t)]) ++
                      [EvLog (LogDropped t)]))) as (c & Hrun & Hsel).
      exists c. split.
      * rewrite Hrun. cbn [tables nowCalls trace]. f_equal. f_equal.
        rewrite <- !app_assoc. reflexivity.
      * intros prefix Hall. inversion Hall as [|? ? Ht Hl]; subst.
        rewrite (Hsel prefix Hl). cbn [tables]. unfold c1, select. f_equal.
        clear - Ht. induction (tables w) as [|x xs IHx]; [reflexivity|].
        cbn [filter]. unfold is_public_named at 1.
        destruct (String.eqb (table_schema x) "public") eqn:Hs;
          destruct (String.eqb (table_name x) t) eqn:Hn; cbn [andb negb filter];
          rewrite ?IHx; try reflexivity.
        apply String.eqb_eq in Hn. subst t.
        unfold where_clause. rewrite Hs, Ht. reflexivity.
Qed.

Lemma createBackups_dry (prefix cd : string) (l : list string) (w : World) :
  createBackups E prefix cd false l w =
  (tt, mkWorld (tables w) (nowCalls w)
         (trace w ++ map (fun t => EvLog (LogCreated t (backupName prefix t cd))) l)).
Proof.
  revert w. induction l as [|t l IH]; intros w.
  - simpl. unfold ret. rewrite app_nil_r. now destruct w.
  - cbn [createBackups]. unfold bind, log_Printf. rewrite IH. simpl.
    now rewrite <- app_assoc.
Qed.

Lemma createBackups_real (prefix cd : string) (l : list string) (w : World) :
  exists c evs,
    createBackups E prefix cd true l w =
    (tt, mkWorld c (nowCalls w) (trace w ++ evs)) /\
    executed evs = map (fun t => CreateTableAs (backupName prefix t cd) t) l /\
    Forall2 (create_logged prefix cd) l (logged evs) /\
    queried evs = [] /\
    forallb is_snapshot_event evs = true /\
    forall t err,
      In t l ->
      exec_fault E (CreateTableAs (backupName prefix t cd) t) = Some err ->
      In (LogCreateFailed t err) (logged evs).
Proof.
  revert w. induction l as [|t l IH]; intros w.
  - exists (tables w), []. simpl. unfold ret. rewrite app_nil_r.
    split; [now destruct w|].
    repeat split; auto.
  - cbn [createBackups]. unfold bind at 1 2.
    unfold createBackupTable, db_Exec.
    set (b := backupName prefix t cd).
    assert (Hdone : forall c1 entry,
      create_logged prefix cd t entry ->
      (forall e, exec_fault E (CreateTableAs b t) = Some e -> entry = LogCreateFailed t e) ->
      exists c evs,
        createBackups E prefix cd true l
          (mkWorld c1 (nowCalls w)
             ((trace w ++ [EvExec (CreateTableAs b t)]) ++ [EvLog entry])) =
        (tt, mkWorld c (nowCalls w) (trace w ++ evs)) /\
        executed evs = map (fun t0 => CreateTableAs (backupName prefix t0 cd) t0) (t :: l) /\
        Forall2 (create_logged prefix cd) (t :: l) (logged evs) /\
        queried evs = [] /\
        forallb is_snapshot_event evs = true /\
        forall t0 e,
          In t0 (t :: l) ->
          exec_fault E (CreateTableAs (backupName prefix t0 cd) t0) = Some e ->
          In (LogCreateFailed t0 e) (logged evs)).
    { intros c1 entry Hentry Hfail.
      destruct (IH (mkWorld c1 (nowCalls w)
                     ((trace w ++ [EvExec (CreateTableAs b t)]) ++ [EvLog entry])))
        as (c & evs & Hrun & Hex & Hlog & Hq & Hsnap & Hfl).
      exists c, (EvExec (CreateTableAs b t) :: EvLog entry :: evs).
      rewrite Hrun. cbn [tables nowCalls trace]. repeat split.
      - f_equal. f_equal. now rewrite <- !app_assoc.
      - cbn [executed map]. now rewrite Hex.
      - cbn [logged]. now constructor.
      - exact Hq.
      - cbn [forallb is_snapshot_event]. rewrite Hsnap.
        destruct Hentry as [->|[e ->]]; reflexivity.
      - intros t0 e [<-|Hin] Hf0; cbn [logged].
        + left. now apply Hfail.
        + right. now apply Hfl. }
    destruct (exec_fault E (CreateTableAs b t)) as [err|] eqn:Hf;
      [|destruct (apply (CreateTableAs b t) (tables w)) as [err|c1] eqn:Ha];
      unfold log_Printf, emit; cbn [tables nowCalls trace]; apply Hdone;
      try (right; now exists err); try (now left);
      try discriminate.
    now intros e [= <-].
Qed.

End Loops.

(** ** The two stages *)

Section Stages.

Variable E : Env.

Lemma select_like_In (prefix t : string) (c : catalog) :
  In t (select (TablesLike prefix) c) <->
  In (public t) c /\ like (prefix ++ "%") t = true.
Proof.
  unfold select. rewrite in_map_iff. split.
  - intros ([sch name] & Hname & Hin). apply filter_In in Hin as [Hin Hw].
    cbn in Hname, Hw. subst name. apply andb_prop in Hw as [Hs Hl].
    apply String.eqb_eq in Hs. subst sch. now split.
  - intros [Hin Hl]. exists (public t). split; [reflexivity|].
    apply filter_In. split; [exact Hin|]. cbn. exact Hl.
Qed.

Lemma select_notlike_In (prefix t : string) (c : catalog) :
  In t (select (TablesNotLike prefix) c) <->
  In (public t) c /\ like (prefix ++ "%") t = false.
Proof.
  unfold select. rewrite in_map_iff. split.
  - intros ([sch name] & Hname & Hin). apply filter_In in Hin as [Hin Hw].
    cbn in Hname, Hw. subst name. apply andb_prop in Hw as [Hs Hl].
    apply String.eqb_eq in Hs. subst sch. split; [exact Hin|].
    now apply negb_true_iff.
  - intros [Hin Hl]. exists (public t). split; [reflexivity|].
    apply filter_In. split; [exact Hin|]. cbn. now rewrite Hl.
Qed.

Lemma markExpired_run (prefix : string) (r : Z) (w : World) :
  markExpired E prefix r w =
  (match enumeration E (TablesLike prefix) (tables w) with
   | inl err => inl err
   | inr names => inr (filter (expired (thresholdOf E r w)) names)
   end,
   mkWorld (tables w) (S (nowCalls w)) (trace w ++ [EvQuery (TablesLike prefix)])).
Proof.
  unfold markExpired, bind, time_Now, db_Query, enumeration, thresholdOf, emit, ret.
  cbn [tables nowCalls trace].
  destruct (query_fault E (TablesLike prefix)); [reflexivity|].
  now rewrite markRows_scanRows.
Qed.

(** Every marked table is one the sweep's query returned. *)
Lemma marked_like (prefix : string) (r : Z) (w : World) (l : list string) :
  fst (markExpired E prefix r w) = inr l ->
  Forall (fun t => like (prefix ++ "%") t = true) l.
Proof.
  rewrite markExpired_run. cbn [fst].
  destruct (enumeration E (TablesLike prefix) (tables w)) as [|names] eqn:He;
    [discriminate|].
  intros [= <-]. apply enumeration_names in He. subst names.
  apply Forall_forall. intros t Hin. apply filter_In in Hin as [Hin _].
  now apply select_like_In in Hin.
Qed.

Lemma deleteOldBackups_run (prefix : string) (r : Z) (realRun : bool) (w : World) :
  exists c,
    deleteOldBackups E prefix r realRun w =
    (match fst (markExpired E prefix r w) with
     | inl err => Some err
     | inr _ => None
     end,
     mkWorld c (S (nowCalls w))
       (trace w ++ sweepTrace E prefix realRun (fst (markExpired E prefix r w)))) /\
    (realRun = false -> c = tables w) /\
    select (TablesNotLike prefix) c = select (TablesNotLike prefix) (tables w).
Proof.
  pose proof (marked_like prefix r w) as Hlike.
  unfold deleteOldBackups, bind, sweepTrace.
  destruct (markExpired E prefix r w) as [m w1] eqn:Hm.
  pose proof (markExpired_run prefix r w) as Hrun. rewrite Hm in Hrun.
  cbn [fst] in *. injection Hrun as Hm1 Hw1. clear Hm1.
  destruct m as [err|l].
  - exists (tables w). unfold ret. subst w1. repeat split.
  - specialize (Hlike l eq_refl). destruct realRun.
    + destruct (dropTables_real E l w1) as (c & Hd & Hsel). rewrite Hd.
      exists c. unfold ret. subst w1. cbn [tables nowCalls trace] in *.
      rewrite <- app_assoc. repeat split; [discriminate|now apply Hsel].
    + rewrite dropTables_dry. exists (tables w). unfold ret. subst w1.
      cbn [tables nowCalls trace]. rewrite <- app_assoc. repeat split.
Qed.

Lemma logged_map_log (ls : list log_entry) :
  logged (map EvLog ls) = ls.
Proof. induction ls; simpl; congruence. Qed.

Lemma executed_map_log (ls : list log_entry) :
  executed (map EvLog ls) = [].
Proof. induction ls; simpl; congruence. Qed.

Lemma queried_map_log (ls : list log_entry) :
  queried (map EvLog ls) = [].
Proof. induction ls; simpl; congruence. Qed.

Lemma snapshotPass_run (prefix : string) (realRun : bool) (w : World) :
  match enumeration E (TablesNotLike prefix) (tables w) with
  | inl e =>
      snapshotPass E prefix realRun w =
      (Some (GetTablesError e), emit (EvQuery (TablesNotLike prefix)) w)
  | inr srcs =>
      let cd := Time.Format20060102 (clock E (nowCalls w)) in
      exists c evs,
        snapshotPass E prefix realRun w =
        (None, mkWorld c (S (nowCalls w))
                 (trace w ++ EvQuery (TablesNotLike prefix) :: evs)) /\
        executed evs =
          (if realRun then map (fun t => CreateTableAs (backupName prefix t cd) t) srcs
           else []) /\
        Forall2 (create_logged prefix cd) srcs (logged evs) /\
        queried evs = [] /\
        forallb is_snapshot_event evs = true /\
        (realRun = false ->
         c = tables w /\
         logged evs = map (fun t => LogCreated t (backupName prefix t cd)) srcs) /\
        (realRun = true ->
         forall t err,
           In t srcs ->
           exec_fault E (CreateTableAs (backupName prefix t cd) t) = Some err ->
           In (LogCreateFailed t err) (logged evs))
  end.
Proof.
  unfold snapshotPass, getTablesToBackup, bind, db_Query, enumeration, ret, emit.
  destruct (query_fault E (TablesNotLike prefix)) as [e|]; [reflexivity|].
  destruct (scanRows (map (scan E) (select (TablesNotLike prefix) (tables w))) [])
    as [e|srcs]; [reflexivity|].
  unfold time_Now. cbn [tables nowCalls trace]. cbv zeta.
  set (cd := Time.Format20060102 (clock E (nowCalls w))).
  destruct realRun.
  - destruct (createBackups_real E prefix cd srcs
                (mkWorld (tables w) (S (nowCalls w))
                   (trace w ++ [EvQuery (TablesNotLike prefix)])))
      as (c & evs & Hrun & Hex & Hlog & Hq & Hsnap & Hfl).
    rewrite Hrun. cbn [tables nowCalls trace].
    exists c, evs. rewrite <- app_assoc. repeat split; auto; discriminate.
  - rewrite createBackups_dry. cbn [tables nowCalls trace].
    exists (tables w), (map (fun t => EvLog (LogCreated t (backupName prefix t cd))) srcs).
    rewrite <- app_assoc.
    assert (Hmap : map (fun t => EvLog (LogCreated t (backupName prefix t cd))) srcs =
                   map EvLog (map (fun t => LogCreated t (backupName prefix t cd)) srcs))
      by now rewrite map_map.
    rewrite Hmap, executed_map_log, logged_map_log, queried_map_log.
    repeat split; auto.
    + clear. induction srcs; constructor; auto. now left.
    + clear. induction srcs; simpl; auto.
    + discriminate.
Qed.

Lemma performBackup_run (prefix : string) (r : Z) (realRun : bool) (w : World) :
  performBackup E prefix r realRun w =
  let (err, w1) := deleteOldBackups E prefix r realRun w in
  match err with
  | Some e => (Some (DeleteOldBackupsError e), w1)
  | None => snapshotPass E prefix realRun w1
  end.
Proof.
  unfold performBackup, bind.
  destruct (deleteOldBackups E prefix r realRun w) as [[e|] w1]; reflexivity.
Qed.

End Stages.

(** ** Strings: slices, order and [LIKE] *)

Lemma string_compare_refl (s : string) : String.compare s s = Eq.
Proof.
  induction s as [|c s IH]; [reflexivity|].
  cbn [String.compare]. unfold Ascii.compare. now rewrite N.compare_refl.
Qed.

Lemma ltb_irrefl (s : string) : (s <? s)%string = false.
Proof. unfold String.ltb. now rewrite string_compare_refl. Qed.



Lemma like_percent (t : string) : like "%" t = true.
Proof.
  induction t as [|c t IH]; [reflexivity|].
  change (like "%" (String c t)) with (like "" (String c t) || like "%" t).
  now rewrite IH, orb_true_r.
Qed.


(** ** Dates *)

Section Dates.

Import Time.

Lemma daysIn_bounds (y m : Z) : 28 <= daysIn y m <= 31.
Proof.
  unfold daysIn.
  destruct (m =? 2); [destruct (isLeap y); lia|].
  destruct ((m =? 4) || (m =? 6) || (m =? 9) || (m =? 11)); lia.
Qed.



Lemma iter_within_month (y m : Z) (k : nat) :
  1 + Z.of_nat k <= daysIn y m ->
  Nat.iter k next_day (mkDate y m 1) = mkDate y m (1 + Z.of_nat k).
Proof.
  induction k as [|k IH]; intros Hk.
  - reflexivity.
  - change (Nat.iter (S k) next_day (mkDate y m 1))
      with (next_day (Nat.iter k next_day (mkDate y m 1))).
    rewrite IH by lia. unfold next_day. cbn [year month day].
    destruct (Z.ltb_spec (1 + Z.of_nat k) (daysIn y m)); [|lia].
    f_equal. lia.
Qed.


Lemma digit_compare (a b : Z) :
  is_digit a -> is_digit b -> Ascii.compare (digit a) (digit b) = (a ?= b).
Proof.
  unfold is_digit. intros Ha Hb.
  assert (Ea : a = 0 \/ a = 1 \/ a = 2 \/ a = 3 \/ a = 4 \/ a = 5 \/ a = 6 \/
               a = 7 \/ a = 8 \/ a = 9) by lia.
  assert (Eb : b = 0 \/ b = 1 \/ b = 2 \/ b = 3 \/ b = 4 \/ b = 5 \/ b = 6 \/
               b = 7 \/ b = 8 \/ b = 9) by lia.
  repeat (destruct Ea as [->|Ea]); try subst a;
    repeat (destruct Eb as [->|Eb]); try subst b; reflexivity.
Qed.

Lemma digitValue_bound (ds : list Z) :
  Forall is_digit ds -> 0 <= digitValue ds < 10 ^ Z.of_nat (List.length ds).
Proof.
  induction 1 as [|a ds Ha Hds IH]; [simpl; lia|].
  cbn [digitValue List.length]. rewrite Nat2Z.inj_succ, Z.pow_succ_r by lia.
  unfold is_digit in Ha. nia.
Qed.

(** Digit strings of one length compare as the numbers they spell. *)
Lemma compare_digitString (l1 l2 : list Z) :
  Forall is_digit l1 -> Forall is_digit l2 ->
  List.length l1 = List.length l2 ->
  String.compare (digitString l1) (digitString l2) = (digitValue l1 ?= digitValue l2).
Proof.
  intros H1. revert l2. induction H1 as [|a r1 Ha Hr1 IH]; intros l2 H2 Hlen.
  - destruct l2; [reflexivity|discriminate].
  - destruct l2 as [|b r2]; [discriminate|].
    inversion H2 as [|? ? Hb Hr2]; subst. injection Hlen as Hlen.
    cbn [digitString digitValue String.compare].
    rewrite (digit_compare a b Ha Hb), (IH r2 Hr2 Hlen), Hlen.
    pose proof (digitValue_bound r1 Hr1) as B1.
    pose proof (digitValue_bound r2 Hr2) as B2.
    rewrite Hlen in B1. set (P := 10 ^ Z.of_nat (List.length r2)) in *.
    destruct (Z.compare_spec a b) as [->|Hab|Hab].
    + now rewrite Z.add_compare_mono_l.
    + symmetry. apply Z.compare_lt_iff. nia.
    + symmetry. apply Z.compare_gt_iff. nia.
Qed.

Lemma Format_digits (d : date) :
  valid d -> 0 <= year d <= 9999 ->
  Format20060102 d = digitString (dateDigits d) /\
  Forall is_digit (dateDigits d) /\
  digitValue (dateDigits d) = dateKey d.
Proof.
  destruct d as [y m dd]. unfold valid, Format20060102, dateDigits, dateKey, appendInt.
  cbn [year month day]. intros [Hm Hd] Hy.
  pose proof (daysIn_bounds y m) as Hb.
  rewrite !Z.abs_eq by lia.
  destruct (Z.ltb_spec y 0); [lia|].
  destruct (Z.ltb_spec m 0); [lia|].
  destruct (Z.ltb_spec dd 0); [lia|].
  destruct (Z.ltb_spec y 10000); [|lia].
  destruct (Z.ltb_spec m 100); [|lia].
  destruct (Z.ltb_spec dd 100); [|lia].
  split; [reflexivity|]. split.
  - unfold is_digit. repeat constructor;
      try (apply Z.div_pos; lia); try (apply Z.mod_pos_bound; lia);
      try (apply Z.lt_succ_r; apply Z.div_lt_upper_bound; lia);
      try (pose proof (Z.mod_pos_bound (y / 100) 10); lia);
      try (pose proof (Z.mod_pos_bound (y / 10) 10); lia);
      try (pose proof (Z.mod_pos_bound y 10); lia);
      try (pose proof (Z.mod_pos_bound m 10); lia);
      try (pose proof (Z.mod_pos_bound dd 10); lia).
  - cbn [digitValue List.length]. 
    change (10 ^ Z.of_nat 7) with 10000000. change (10 ^ Z.of_nat 6) with 1000000.
    change (10 ^ Z.of_nat 5) with 100000. change (10 ^ Z.of_nat 4) with 10000.
    change (10 ^ Z.of_nat 3) with 1000. change (10 ^ Z.of_nat 2) with 100.
    change (10 ^ Z.of_nat 1) with 10. change (10 ^ Z.of_nat 0) with 1.
    clear Hd Hb. Z.div_mod_to_equations. lia.
Qed.

(** Between dates with four-digit years the formatted strings order as
    the dates do. *)
Lemma Format_ltb (d1 d2 : date) :
  valid d1 -> valid d2 -> 0 <= year d1 <= 9999 -> 0 <= year d2 <= 9999 ->
  (Format20060102 d1 <? Format20060102 d2)%string = (dateKey d1 <? dateKey d2).
Proof.
  intros V1 V2 Y1 Y2.
  destruct (Format_digits d1 V1 Y1) as (-> & F1 & K1).
  destruct (Format_digits d2 V2 Y2) as (-> & F2 & K2).
  unfold String.ltb. rewrite compare_digitString by (auto; reflexivity).
  rewrite K1, K2. unfold Z.ltb. reflexivity.
Qed.


End Dates.

(** ** A whole run, from the world [main] starts it in *)

Section Run.

Variable E : Env.

Lemma executed_dropEvents (l : list string) :
  executed (flat_map (dropEvents E) l) = map DropTableIfExists l.
Proof. induction l as [|t l IH]; simpl; congruence. Qed.


Lemma queried_dropEvents (l : list string) :
  queried (flat_map (dropEvents E) l) = [].
Proof. induction l as [|t l IH]; simpl; congruence. Qed.



Lemma executed_sweepTrace (prefix : string) (realRun : bool) (m : dberr + list string) :
  executed (sweepTrace E prefix realRun m) =
  match m with
  | inl _ => []
  | inr l => if realRun then map DropTableIfExists l else []
  end.
Proof.
  unfold sweepTrace. cbn [executed]. destruct m as [|l]; [reflexivity|].
  destruct realRun; [apply executed_dropEvents|].
  rewrite <- (map_map LogDropped EvLog). apply executed_map_log.
Qed.

Lemma queried_sweepTrace (prefix : string) (realRun : bool) (m : dberr + list string) :
  queried (sweepTrace E prefix realRun m) = [TablesLike prefix].
Proof.
  unfold sweepTrace. cbn [queried]. f_equal. destruct m as [|l]; [reflexivity|].
  destruct realRun; [apply queried_dropEvents|].
  rewrite <- (map_map LogDropped EvLog). apply queried_map_log.
Qed.




(** The shape of every run. *)
Lemma performBackup_trace (prefix : string) (r : Z) (realRun : bool) (c : catalog) :
  let m := fst (markExpired E prefix r (initial c)) in
  let cd := Time.Format20060102 (clock E 1) in
  exists res c' n snap,
    performBackup E prefix r realRun (initial c) =
    (res, mkWorld c' n (sweepTrace E prefix realRun m ++ snap)) /\
    (realRun = false -> c' = c) /\
    match m with
    | inl e => res = Some (DeleteOldBackupsError e) /\ snap = [] /\ n = 1%nat
    | inr _ =>
        match enumeration E (TablesNotLike prefix) c with
        | inl e =>
            res = Some (GetTablesError e) /\ snap = [EvQuery (TablesNotLike prefix)] /\
            n = 1%nat
        | inr srcs =>
            res = None /\ n = 2%nat /\
            exists evs,
              snap = EvQuery (TablesNotLike prefix) :: evs /\
              executed evs =
                (if realRun
                 then map (fun t => CreateTableAs (backupName prefix t cd) t) srcs
                 else []) /\
              Forall2 (create_logged prefix cd) srcs (logged evs) /\
              queried evs = [] /\
              forallb is_snapshot_event evs = true /\
              (realRun = false ->
               logged evs = map (fun t => LogCreated t (backupName prefix t cd)) srcs) /\
              (realRun = true ->
               forall t err,
                 In t srcs ->
                 exec_fault E (CreateTableAs (backupName prefix t cd) t) = Some err ->
                 In (LogCreateFailed t err) (logged evs))
        end
    end.
Proof.
  intros m cd. rewrite performBackup_run.
  destruct (deleteOldBackups_run E prefix r realRun (initial c)) as (c1 & Hrun & Hdry & Hsel).
  rewrite Hrun. fold m. cbn [initial tables nowCalls trace app] in *.
  destruct m as [e|marked] eqn:Hm.
  - exists (Some (DeleteOldBackupsError e)), c1, 1%nat, [].
    rewrite app_nil_r. repeat split; auto.
  - set (w1 := mkWorld c1 1 (sweepTrace E prefix realRun (inr marked))).
    pose proof (snapshotPass_run E prefix realRun w1) as Hsnap.
    assert (He : enumeration E (TablesNotLike prefix) (tables w1) =
                 enumeration E (TablesNotLike prefix) c).
    { unfold enumeration. cbn [w1 tables]. now rewrite Hsel. }
    rewrite He in Hsnap.
    destruct (enumeration E (TablesNotLike prefix) c) as [e|srcs].
    + rewrite Hsnap. unfold emit. cbn [w1 tables nowCalls trace].
      exists (Some (GetTablesError e)), c1, 1%nat, [EvQuery (TablesNotLike prefix)].
      repeat split; auto.
    + cbn [w1 tables nowCalls trace] in Hsnap. fold cd in Hsnap. cbv zeta in Hsnap.
      destruct Hsnap as (c2 & evs & Hs & Hex & Hlog & Hq & Hsn & Hd & Hfl).
      rewrite Hs.
      exists None, c2, 2%nat, (EvQuery (TablesNotLike prefix) :: evs).
      split; [reflexivity|]. split.
      * intros Hr. destruct (Hd Hr) as [-> _]. now apply Hdry.
      * split; [reflexivity|]. split; [reflexivity|].
        exists evs. repeat split; auto. intros Hr. now destruct (Hd Hr).
Qed.

End Run.

(** * The claims *)

Lemma marked_iff (E : Env) (prefix : string) (r : Z) (c : catalog) (marked : list string) (t : string) :
  fst (markExpired E prefix r (initial c)) = inr marked ->
  (In t marked <->
   In (public t) c /\ like (prefix ++ "%") t = true /\
   (8 <= String.length t)%nat /\
   (datePart t <? thresholdOf E r (initial c))%string = true).
Proof.
  rewrite markExpired_run. cbn [fst initial tables].
  destruct (enumeration E (TablesLike prefix) c) as [|names] eqn:He; [discriminate|].
  intros [= <-]. apply enumeration_names in He. subst names.
  rewrite filter_In, select_like_In. unfold expired.
  rewrite andb_true_iff, Nat.leb_le. tauto.
Qed.







(** C8.  The retention boundary is strict: a table whose last 8 bytes
    equal the threshold string is not marked; every marked table has
    its last 8 bytes strictly below the threshold. *)
Theorem retention_boundary_strict
  (E : Env) (prefix : string) (r : Z) (c : catalog) (marked : list string) (t : string) :
  fst (markExpired E prefix r (initial c)) = inr marked ->
  (datePart t = thresholdOf E r (initial c) -> ~ In t marked) /\
  (In t marked ->
   (datePart t <? thresholdOf E r (initial c))%string = true /\
   datePart t <> thresholdOf E r (initial c)).
Proof.
  intros Hm.
  assert (Hlt : In t marked -> (datePart t <? thresholdOf E r (initial c))%string = true).
  { intros Hin. apply (marked_iff E prefix r c marked t Hm) in Hin. tauto. }
  assert (Hne : datePart t = thresholdOf E r (initial c) -> ~ In t marked).
  { intros Heq Hin. apply Hlt in Hin. rewrite Heq, ltb_irrefl in Hin. discriminate. }
  split; [exact Hne|].
  intros Hin. split; [now apply Hlt|]. intros Heq. now apply Hne.
Qed.

(** On 2023-05-15 with 14 days the backup of 2023-05-01 stays and the
    one of 2023-04-30 goes. *)
Lemma retention_boundary_strict_witness :
  ~ In "autobackup_foo_20230501" ["autobackup_foo_20230430"].
Proof.
  refine (proj1 (retention_boundary_strict (quiet (Time.mkDate 2023 5 15)) "autobackup" 14
                   [public "autobackup_foo_20230501"; public "autobackup_foo_20230430"]
                   ["autobackup_foo_20230430"] "autobackup_foo_20230501" _) _).
  - vm_compute. reflexivity.
  - vm_compute. reflexivity.
Defined.

(** ** Negative retention *)


Lemma dateKey_year (d1 d2 : Time.date) :
  Time.valid d1 -> Time.valid d2 -> dateKey d1 <= dateKey d2 ->
  Time.year d1 <= Time.year d2.
Proof.
  destruct d1 as [y1 m1 dd1], d2 as [y2 m2 dd2].
  unfold Time.valid, dateKey. cbn [Time.year Time.month Time.day].
  intros [Hm1 Hd1] [Hm2 Hd2] Hk.
  pose proof (daysIn_bounds y1 m1). pose proof (daysIn_bounds y2 m2). lia.
Qed.



(** ** The two enumerations *)

Lemma creates_in_executed (E : Env) (prefix : string) (r : Z) (realRun : bool)
  (c : catalog) (b src : string) :
  In (CreateTableAs b src)
     (executed (trace (snd (performBackup E prefix r realRun (initial c))))) ->
  realRun = true /\
  b = backupName prefix src (Time.Format20060102 (clock E 1)) /\
  In src (select (TablesNotLike prefix) c).
Proof.
  destruct (performBackup_trace E prefix r realRun c)
    as (res & c' & n & snap & Hrun & _ & Hshape).
  rewrite Hrun. cbn [snd trace]. rewrite executed_app, executed_sweepTrace.
  intros Hin. apply in_app_or in Hin as [Hin|Hin].
  - destruct (fst (markExpired E prefix r (initial c))) as [|l]; [destruct Hin|].
    destruct realRun; [|destruct Hin].
    apply in_map_iff in Hin as (x & Hx & _). discriminate.
  - destruct (fst (markExpired E prefix r (initial c))) as [e|l].
    + destruct Hshape as (_ & -> & _). destruct Hin.
    + destruct (enumeration E (TablesNotLike prefix) c) as [e|srcs] eqn:He.
      * destruct Hshape as (_ & -> & _). destruct Hin.
      * destruct Hshape as (_ & _ & evs & -> & Hex & _).
        cbn [executed] in Hin. rewrite Hex in Hin.
        destruct realRun; [|destruct Hin]. split; [reflexivity|].
        apply in_map_iff in Hin as (x & [= <- <-] & Hx).
        split; [reflexivity|].
        apply enumeration_names in He. now subst srcs.
Qed.



(** ** Dry run against real run *)




(** ** Errors *)





(** ** Order of the stages *)


(** ** The sweep in two phases *)

Lemma markExpired_same_but_exec (E E' : Env) (prefix : string) (r : Z) (w : World) :
  same_but_exec E E' ->
  fst (markExpired E prefix r w) = fst (markExpired E' prefix r w).
Proof.
  intros (Hclock & Hquery & Hscan). rewrite !markExpired_run. cbn [fst].
  unfold enumeration, thresholdOf. rewrite Hquery, Hclock.
  replace (map (scan E) (select (TablesLike prefix) (tables w)))
    with (map (scan E') (select (TablesLike prefix) (tables w))); [reflexivity|].
  apply map_ext. intros t. unfold scan. now rewrite Hscan.
Qed.

(** C10.  Two-phase sweep: in a real run the sweep queries the catalog
    once, as its first event, and the DROPs it then sends are, in
    order, those of the tables marked from that enumeration; the marked
    list and the sequence of DROPs are the same in any two
    environments that differ only in which statements fail. *)
Theorem two_phase_sweep (E E' : Env) (prefix : string) (r : Z) (c : catalog) :
  same_but_exec E E' ->
  let w := snd (deleteOldBackups E prefix r true (initial c)) in
  let w' := snd (deleteOldBackups E' prefix r true (initial c)) in
  fst (markExpired E prefix r (initial c)) = fst (markExpired E' prefix r (initial c)) /\
  executed (trace w) = executed (trace w') /\
  executed (trace w) =
    match fst (markExpired E prefix r (initial c)) with
    | inl _ => []
    | inr marked => map DropTableIfExists marked
    end /\
  exists rest, trace w = EvQuery (TablesLike prefix) :: rest /\ queried rest = [].
Proof.
  intros Hsame w w'. unfold w, w'.
  pose proof (markExpired_same_but_exec E E' prefix r (initial c) Hsame) as Hm.
  destruct (deleteOldBackups_run E prefix r true (initial c)) as (c1 & -> & _ & _).
  destruct (deleteOldBackups_run E' prefix r true (initial c)) as (c2 & -> & _ & _).
  cbn [snd trace initial app]. rewrite !executed_sweepTrace, <- Hm.
  split; [reflexivity|]. split; [reflexivity|]. split; [reflexivity|].
  pose proof (queried_sweepTrace E prefix true (fst (markExpired E prefix r (initial c))))
    as Hq.
  unfold sweepTrace in *. cbn [queried] in Hq. injection Hq as Hq.
  eexists. split; [reflexivity|exact Hq].
Qed.

(** The DROPs of one run do not depend on whether the server refuses
    them. *)
Lemma two_phase_sweep_witness :
  executed (trace (snd (deleteOldBackups (quiet (Time.mkDate 2023 5 15)) "autobackup" 14 true
                          (initial [public "autobackup_a_20230101";
                                    public "autobackup_b_20230101"])))) =
  executed (trace (snd (deleteOldBackups
                          (refusing (Time.mkDate 2023 5 15) "autobackup_a_20230101" "orders")
                          "autobackup" 14 true
                          (initial [public "autobackup_a_20230101";
                                    public "autobackup_b_20230101"])))).
Proof.
  refine (proj1 (proj2 (two_phase_sweep (quiet (Time.mkDate 2023 5 15))
                          (refusing (Time.mkDate 2023 5 15) "autobackup_a_20230101" "orders")
                          "autobackup" 14
                          [public "autobackup_a_20230101"; public "autobackup_b_20230101"]
                          _))).
  unfold same_but_exec. repeat split.
Defined.

(** ** Backup names *)

Lemma created_in_log (prefix cd : string) (srcs : list string) (ls : list log_entry)
  (src b : string) :
  Forall2 (create_logged prefix cd) srcs ls ->
  In (LogCreated src b) ls -> b = backupName prefix src cd.
Proof.
  induction 1 as [|t l srcs ls Hl _ IH]; intros Hin; [destruct Hin|].
  destruct Hin as [->|Hin]; [|now apply IH].
  destruct Hl as [[= <- <-]|[e [=]]]. reflexivity.
Qed.

Lemma no_created_in_sweep (E : Env) (prefix : string) (realRun : bool)
  (m : dberr + list string) (src b : string) :
  ~ In (LogCreated src b) (logged (sweepTrace E prefix realRun m)).
Proof.
  unfold sweepTrace. cbn [logged]. destruct m as [|l]; [intros []|].
  destruct realRun.
  - induction l as [|t l IH]; [intros []|].
    cbn [flat_map dropEvents app logged]. intros [H|H]; [|now apply IH].
    destruct (exec_fault E (DropTableIfExists t)); discriminate.
  - rewrite <- (map_map LogDropped EvLog), logged_map_log.
    intros H. apply in_map_iff in H as (x & [=] & _).
Qed.

(** C5.  Backup naming and snapshot date: every CREATE a run sends, for
    a name [src] the snapshot enumeration returned, creates
    [prefix_src_date], and every success line of the snapshot pass
    names that table, where [date] is the one reading of the clock the
    snapshot pass takes (the second of the run, before its loop),
    formatted [YYYYMMDD]: one date for all backups of the run.  When
    the run returns no error the clock was read twice in all, and each
    name of the enumeration has its CREATE (real run) or its log line
    (dry run). *)
Theorem backup_naming (E : Env) (prefix : string) (r : Z) (realRun : bool) (c : catalog) :
  let run := performBackup E prefix r realRun (initial c) in
  let currentDate := Time.Format20060102 (clock E 1) in
  (forall b src,
     In (CreateTableAs b src) (executed (trace (snd run))) ->
     b = (prefix ++ "_" ++ src ++ "_" ++ currentDate)%string /\
     In src (select (TablesNotLike prefix) c)) /\
  (forall src b,
     In (LogCreated src b) (logged (trace (snd run))) ->
     b = (prefix ++ "_" ++ src ++ "_" ++ currentDate)%string) /\
  (fst run = None ->
   nowCalls (snd run) = 2%nat /\
   forall src,
     In src (select (TablesNotLike prefix) c) ->
     if realRun
     then In (CreateTableAs (prefix ++ "_" ++ src ++ "_" ++ currentDate) src)
             (executed (trace (snd run)))
     else In (LogCreated src (prefix ++ "_" ++ src ++ "_" ++ currentDate))
             (logged (trace (snd run)))).
Proof.
  intros run currentDate. unfold run. split; [|split].
  - intros b src Hin. apply creates_in_executed in Hin as (_ & -> & Hsrc).
    now split.
  - destruct (performBackup_trace E prefix r realRun c)
      as (res & c' & n & snap & -> & _ & Hshape).
    cbn [snd trace]. intros src b Hin. rewrite logged_app in Hin.
    apply in_app_or in Hin as [Hin|Hin]; [now apply no_created_in_sweep in Hin|].
    destruct (fst (markExpired E prefix r (initial c))) as [e|marked].
    + destruct Hshape as (_ & -> & _). destruct Hin.
    + destruct (enumeration E (TablesNotLike prefix) c) as [e|srcs].
      * destruct Hshape as (_ & -> & _). destruct Hin.
      * destruct Hshape as (_ & _ & evs & -> & _ & Hlog & _).
        cbn [logged] in Hin. exact (created_in_log _ _ _ _ _ _ Hlog Hin).
  - destruct (performBackup_trace E prefix r realRun c)
      as (res & c' & n & snap & -> & _ & Hshape).
    cbn [fst snd trace nowCalls]. intros ->.
    destruct (fst (markExpired E prefix r (initial c))) as [e|marked].
    + destruct Hshape as ([=] & _).
    + destruct (enumeration E (TablesNotLike prefix) c) as [e|srcs] eqn:He.
      * destruct Hshape as ([=] & _).
      * destruct Hshape as (_ & -> & evs & -> & Hex & _ & _ & _ & Hdry & _).
        split; [reflexivity|]. intros src Hsrc.
        apply enumeration_names in He. subst srcs.
        destruct realRun.
        -- rewrite executed_app. apply in_or_app. right. cbn [executed]. rewrite Hex.
           apply in_map_iff. now exists src.
        -- rewrite logged_app. apply in_or_app. right. cbn [logged].
           rewrite (Hdry eq_refl). apply in_map_iff. now exists src.
Qed.

(** The end-to-end scenario of 2023-05-01: the real run creates
    [autobackup_users_20230501] and [autobackup_orders_20230501]. *)
Lemma backup_naming_witness :
  let c := [public "users"; public "orders"; public "autobackup_users_20230101"] in
  let run := performBackup (quiet (Time.mkDate 2023 5 1)) "autobackup" 14 true (initial c) in
  nowCalls (snd run) = 2%nat /\
  In (CreateTableAs "autobackup_orders_20230501" "orders") (executed (trace (snd run))).
Proof.
  intros c run.
  destruct (backup_naming (quiet (Time.mkDate 2023 5 1)) "autobackup" 14 true c)
    as (_ & _ & Hall).
  destruct (Hall eq_refl) as [Hn Hsrc]. split; [exact Hn|].
  apply (Hsrc "orders"). simpl. auto.
Defined.

(** * Beyond the claims *)

(** ** What a real sweep does to the catalog *)

Section SweepEffect.

Variable E : Env.








End SweepEffect.






(** ** What a real snapshot pass does to the catalog *)

Section SnapshotEffect.

Variable E : Env.





End SnapshotEffect.





(** ** Configuration and [main] *)

Lemma dry_run_inert (E : Env) (prefix : string) (r : Z) (c : catalog) :
  executed (trace (snd (performBackup E prefix r false (initial c)))) = [] /\
  tables (snd (performBackup E prefix r false (initial c))) = c.
Proof.
  destruct (performBackup_trace E prefix r false c)
    as (res & c' & n & snap & -> & Hc & Hshape).
  cbn [snd trace tables]. split; [|now apply Hc].
  rewrite executed_app, executed_sweepTrace.
  destruct (fst (markExpired E prefix r (initial c))) as [e|marked].
  - now destruct Hshape as (_ & -> & _).
  - destruct (enumeration E (TablesNotLike prefix) c) as [e|srcs].
    + now destruct Hshape as (_ & -> & _).
    + destruct Hshape as (_ & _ & evs & -> & Hex & _). cbn [executed app]. exact Hex.
Qed.


(** X5.  A configuration that [loadConfig] returns never has an empty
    prefix nor a retention of 0: exactly these two values are replaced,
    by [autobackup] and by 14; any other prefix and any other
    retention, a negative one too, comes back as decoded, and so does
    the whole connection section. *)
Theorem loadConfig_defaults (sys : System) (filename : string) (config : Config) :
  loadConfig sys filename = inr config ->
  Prefix (Backup config) <> "" /\
  Retention (Backup config) <> 0 /\
  exists file decoded,
    ioutil_ReadFile sys filename = inr file /\
    json_Unmarshal sys file = inr decoded /\
    Postgres config = Postgres decoded /\
    (Prefix (Backup decoded) = "" -> Prefix (Backup config) = "autobackup") /\
    (Prefix (Backup decoded) <> "" -> Prefix (Backup config) = Prefix (Backup decoded)) /\
    (Retention (Backup decoded) = 0 -> Retention (Backup config) = 14) /\
    (Retention (Backup decoded) <> 0 ->
     Retention (Backup config) = Retention (Backup decoded)).
Proof.
  unfold loadConfig.
  destruct (ioutil_ReadFile sys filename) as [e|file] eqn:Hread; [discriminate|].
  destruct (json_Unmarshal sys file) as [e|decoded] eqn:Hjson; [discriminate|].
  destruct decoded as [pg [pfx ret]]. cbv zeta. cbn [Backup Postgres Prefix Retention].
  destruct (String.eqb_spec pfx "") as [Hp|Hp]; cbn [Backup Postgres Prefix Retention];
    destruct (Z.eqb_spec ret 0) as [Hr|Hr]; intros [= <-];
    cbn [Backup Postgres Prefix Retention];
    (split; [try exact Hp; discriminate|]);
    (split; [try exact Hr; discriminate|]);
    exists file, (mkConfig pg (mkBackupConfig pfx ret));
    cbn [Backup Postgres Prefix Retention];
    repeat split; auto; intros; congruence.
Qed.

Lemma loadConfig_defaults_witness :
  "autobackup" <> "" /\ 14 <> 0.
Proof.
  destruct (loadConfig_defaults sample_system "config.ini"
              (mkConfig (mkPostgresConfig "localhost" 5432 "wer" "password" "dbname")
                 (mkBackupConfig "autobackup" 14)) eq_refl) as (Hp & Hr & _).
  split; [exact Hp|exact Hr].
Defined.

(** X6.  [main] never writes: it defines the flag [run] and never
    parses the command line, so whatever the arguments, [-run] too, the
    backup runs as a dry run; no statement reaches the server and the
    catalog is left as it was. *)
Theorem main_never_writes (sys : System) (E : Env) (c : catalog) :
  executed (trace (snd (main sys E (initial c)))) = [] /\
  tables (snd (main sys E (initial c))) = c.
Proof.
  unfold main. cbn [flag_Bool flag_deref find fst snd String.eqb].
  destruct (loadConfig sys "config.ini") as [e|config]; [now split|].
  destruct (connectToPostgres sys (Postgres config)) as [e|db]; [now split|].
  replace (flag_deref [("run", false)] "run") with false by reflexivity.
  pose proof (dry_run_inert E (Prefix (Backup config)) (Retention (Backup config)) c) as H.
  destruct (performBackup E (Prefix (Backup config)) (Retention (Backup config)) false
              (initial c)) as [[e|] w']; exact H.
Qed.


(** ** The name written by the snapshot pass, read by the sweep *)








(** ** Going back in time *)

Section DatesBack.

Import Time.

Lemma prev_day_spec (d : date) :
  valid d -> valid (prev_day d) /\ dateKey (prev_day d) < dateKey d.
Proof.
  destruct d as [y m dd]. unfold valid, prev_day, dateKey. cbn [year month day].
  intros [Hm Hd]. pose proof (daysIn_bounds y m) as Hb.
  destruct (Z.ltb_spec 1 dd); cbn [year month day].
  - lia.
  - destruct (Z.ltb_spec 1 m); cbn [year month day].
    + pose proof (daysIn_bounds y (m - 1)). lia.
    + change (daysIn (y - 1) 12) with 31. lia.
Qed.

Lemma iter_prev_day (n : nat) (d : date) :
  valid d ->
  valid (Nat.iter n prev_day d) /\ dateKey (Nat.iter n prev_day d) + Z.of_nat n <= dateKey d.
Proof.
  intros Hv. induction n as [|n [IHv IHk]].
  - simpl. split; [exact Hv|lia].
  - change (Nat.iter (S n) prev_day d) with (prev_day (Nat.iter n prev_day d)).
    destruct (prev_day_spec _ IHv) as [Hv' Hk']. split; [exact Hv'|lia].
Qed.

Lemma iter_prev_within_month (y m dd : Z) (k : nat) :
  1 <= dd - Z.of_nat k ->
  Nat.iter k prev_day (mkDate y m dd) = mkDate y m (dd - Z.of_nat k).
Proof.
  induction k as [|k IH]; intros Hk.
  - simpl. f_equal. lia.
  - change (Nat.iter (S k) prev_day (mkDate y m dd))
      with (prev_day (Nat.iter k prev_day (mkDate y m dd))).
    rewrite IH by lia. unfold prev_day. cbn [year month day].
    destruct (Z.ltb_spec 1 (dd - Z.of_nat k)); [|lia].
    f_equal. lia.
Qed.

(** Going backward, [AddDate(0, 0, -n)] is [n] times the day before. *)
Lemma AddDate_backward (d : date) (n : Z) :
  valid d -> 0 <= n ->
  AddDate d 0 0 (- n) = Nat.iter (Z.to_nat n) prev_day d.
Proof.
  destruct d as [y m dd]. unfold valid, AddDate. cbn [year month day].
  intros [Hm Hd] Hn.
  replace ((m - 1 + 0) / 12) with 0 by (symmetry; apply Z.div_small; lia).
  replace ((m - 1 + 0) mod 12 + 1) with m by (rewrite Z.mod_small; lia).
  replace (y + 0 + 0) with y by lia.
  unfold shift_days. destruct (Z.leb_spec 0 (dd - 1 + - n)).
  - rewrite iter_within_month by lia.
    rewrite iter_prev_within_month by lia. f_equal. lia.
  - replace (Z.to_nat n) with (Z.to_nat (- (dd - 1 + - n)) + Z.to_nat (dd - 1))%nat by lia.
    rewrite Nat.iter_add. rewrite (iter_prev_within_month y m dd) by lia.
    do 2 f_equal. lia.
Qed.

(** Of two numbers of days back, the larger leads to the earlier date. *)
Lemma AddDate_backward_order (d : date) (a b : Z) :
  valid d -> 0 <= a -> 0 <= b ->
  valid (AddDate d 0 0 (- a)) /\
  (dateKey (AddDate d 0 0 (- b)) <? dateKey (AddDate d 0 0 (- a))) = (a <? b).
Proof.
  intros Hv Ha Hb. rewrite !AddDate_backward by assumption.
  destruct (iter_prev_day (Z.to_nat a) d Hv) as [Hva _]. split; [exact Hva|].
  destruct (Z.ltb_spec a b) as [Hab|Hab].
  - apply Z.ltb_lt.
    replace (Z.to_nat b) with (Z.to_nat (b - a) + Z.to_nat a)%nat by lia.
    rewrite Nat.iter_add.
    destruct (iter_prev_day (Z.to_nat (b - a)) _ Hva) as [_ Hk]. lia.
  - apply Z.ltb_ge.
    replace (Z.to_nat a) with (Z.to_nat (a - b) + Z.to_nat b)%nat by lia.
    rewrite Nat.iter_add.
    destruct (iter_prev_day (Z.to_nat b) d Hv) as [Hvb _].
    destruct (iter_prev_day (Z.to_nat (a - b)) _ Hvb) as [_ Hk]. lia.
Qed.

End DatesBack.

Lemma neg_of_nonneg (r : Z) : 0 <= r <= max_int -> GoInt.neg r = - r.
Proof.
  unfold GoInt.neg, GoInt.wrap, max_int. intros H. rewrite Z.mod_small; lia.
Qed.



(** ** The prefix as a pattern *)

Lemma like_plain (p t : string) :
  plain p = true -> like (p ++ "%") t = String.prefix p t.
Proof.
  revert t. induction p as [|c p IH]; intros t Hp.
  - rewrite like_percent. now destruct t.
  - cbn [plain] in Hp. apply andb_prop in Hp as [Hp Hrest].
    apply andb_prop in Hp as [Hp H3]. apply andb_prop in Hp as [H1 H2].
    apply negb_true_iff in H1, H2, H3.
    cbn [append like]. rewrite H1, H2, H3.
    destruct t as [|x t]; [reflexivity|]. cbn [String.prefix].
    destruct (ascii_dec c x) as [<-|Hne].
    + rewrite Ascii.eqb_refl. now apply IH.
    + destruct (Ascii.eqb_spec x c); [congruence|reflexivity].
Qed.

(** X9.  For a prefix without [%], [_] and backslash the two catalog
    queries split the public tables by their first bytes: the sweep
    enumerates exactly the names that start with the prefix, the
    snapshot pass exactly the names that do not. *)
Theorem plain_prefix_splits_by_start (prefix : string) (c : catalog) (t : string) :
  plain prefix = true ->
  (In t (select (TablesLike prefix) c) <->
   In (public t) c /\ String.prefix prefix t = true) /\
  (In t (select (TablesNotLike prefix) c) <->
   In (public t) c /\ String.prefix prefix t = false).
Proof.
  intros Hp. rewrite select_like_In, select_notlike_In, (like_plain prefix t Hp).
  split; reflexivity.
Qed.

Lemma plain_prefix_splits_by_start_witness :
  (In "autobackup_users_20230101"
      (select (TablesLike "autobackup") [public "users"; public "autobackup_users_20230101"]) <->
   In (public "autobackup_users_20230101")
      [public "users"; public "autobackup_users_20230101"] /\
   String.prefix "autobackup" "autobackup_users_20230101" = true).
Proof.
  refine (proj1 (plain_prefix_splits_by_start "autobackup"
                   [public "users"; public "autobackup_users_20230101"]
                   "autobackup_users_20230101" _)).
  reflexivity.
Defined.

(** ** Running again on the same day *)

Section Rerun.

Variable E : Env.






End Rerun.



(** ** A longer retention *)

Lemma string_lt_le_trans (a b c : string) :
  String.compare a b = Lt -> String.compare b c <> Gt -> String.compare a c = Lt.
Proof.
  revert b c. induction a as [|x a IH]; intros [|y b] [|z c]; cbn [String.compare];
    try congruence.
  unfold Ascii.compare.
  destruct (N.compare_spec (N_of_ascii x) (N_of_ascii y)) as [Hxy|Hxy|Hxy];
    destruct (N.compare_spec (N_of_ascii y) (N_of_ascii z)) as [Hyz|Hyz|Hyz];
    destruct (N.compare_spec (N_of_ascii x) (N_of_ascii z)) as [Hxz|Hxz|Hxz];
    try congruence; try lia.
  apply IH.
Qed.

Lemma ltb_lt_le_trans (a b c : string) :
  (a <? b)%string = true -> (c <? b)%string = false -> (a <? c)%string = true.
Proof.
  unfold String.ltb. intros Hab Hcb.
  rewrite (string_lt_le_trans a b c); [reflexivity| |].
  - now destruct (String.compare a b).
  - rewrite String.compare_antisym. destruct (String.compare c b); cbn; congruence.
Qed.

(** X11.  A longer retention never marks more: for retentions
    [0 <= r1 <= r2] on the same day and catalog, every table the sweep
    marks with [r2] it also marks with [r1], whatever the last 8 bytes
    of the names are.  Dates are those [YYYYMMDD] spells in 8 digits. *)
Theorem longer_retention_marks_less
  (E : Env) (prefix : string) (r1 r2 : Z) (c : catalog) (m1 m2 : list string) (t : string) :
  0 <= r1 -> r1 <= r2 -> r2 <= max_int ->
  Time.valid (clock E 0) ->
  Time.year (clock E 0) <= 9999 ->
  0 <= Time.year (Time.AddDate (clock E 0) 0 0 (- r2)) ->
  fst (markExpired E prefix r1 (initial c)) = inr m1 ->
  fst (markExpired E prefix r2 (initial c)) = inr m2 ->
  In t m2 -> In t m1.
Proof.
  intros H0 H12 Hmax Hv Hy Hy2 Hm1 Hm2 Hin.
  set (today := clock E 0) in *.
  apply (marked_iff E prefix r2 c m2 t Hm2) in Hin as (Hc & Hl & Hlen & Hexp).
  apply (marked_iff E prefix r1 c m1 t Hm1). repeat split; auto.
  unfold thresholdOf in *. cbn [initial nowCalls] in *. fold today in Hexp |- *.
  rewrite neg_of_nonneg in Hexp |- * by lia.
  apply (ltb_lt_le_trans _ _ _ Hexp).
  assert (H2 : 0 <= r2) by lia.
  destruct (AddDate_backward_order today r2 r1 Hv H2 H0) as [Hv2 Hord].
  destruct (AddDate_backward_order today r1 r2 Hv H0 H2) as [Hv1 _].
  assert (Hle : forall n, 0 <= n ->
                  Time.year (Time.AddDate today 0 0 (- n)) <= Time.year today).
  { intros n Hn. pose proof (AddDate_backward today n Hv Hn) as Hb.
    destruct (iter_prev_day (Z.to_nat n) today Hv) as [Hvn Hkn].
    rewrite <- Hb in Hvn, Hkn. apply dateKey_year; auto. lia. }
  assert (Hy1 : 0 <= Time.year (Time.AddDate today 0 0 (- r1))).
  { destruct (Z.eq_dec r1 r2) as [->|Hne]; [exact Hy2|].
    destruct (AddDate_backward_order today r1 r2 Hv H0 H2) as [_ Hlt].
    replace (r1 <? r2) with true in Hlt by (symmetry; apply Z.ltb_lt; lia).
    apply Z.ltb_lt in Hlt.
    pose proof (dateKey_year _ _ Hv2 Hv1 (Z.lt_le_incl _ _ Hlt)). lia. }
  pose proof (Hle r1 H0). pose proof (Hle r2 H2).
  rewrite Format_ltb by (auto; lia). rewrite Hord. apply Z.ltb_ge. lia.
Qed.

(** On 2023-05-15 the backup of 2023-04-20 is marked with 14 days and
    with 7 days. *)
Lemma longer_retention_marks_less_witness :
  In "autobackup_users_20230420" ["autobackup_users_20230420"; "autobackup_users_20230505"].
Proof.
  refine (longer_retention_marks_less (quiet (Time.mkDate 2023 5 15)) "autobackup" 7 14
            [public "autobackup_users_20230420"; public "autobackup_users_20230505"]
            ["autobackup_users_20230420"; "autobackup_users_20230505"]
            ["autobackup_users_20230420"] "autobackup_users_20230420"
            _ _ _ _ _ _ _ _ _).
  - lia.
  - lia.
  - unfold max_int. lia.
  - vm_compute. intuition discriminate.
  - vm_compute. discriminate.
  - vm_compute. discriminate.
  - vm_compute. reflexivity.
  - vm_compute. reflexivity.
  - simpl. auto.
Defined.
